(** * Beach accommodation finder: the search, filter and rank pipeline

    A shallow embedding of [src/input_processing.py] and
    [src/backend_execution.py] (with [haversine_distance] of [src/utils.py])
    and the properties of the pipeline proved over it.

    Conventions of the embedding.
    - A Python [str] is a [string] holding the UTF-8 encoding of its code
      points; the [str] methods ([lower], [strip], [split], [replace]) work on
      the decoded code points, as Python's do.
    - A Python [float] is an exact rational [Q]: the arithmetic of the
      pipeline ([+], [-], [/], comparisons, [round(_, 2)]) is the exact one,
      rounding errors of binary64 are not modelled.  The functions of the
      [math] module are an interface ([MathModule]).
    - A dict used as a record (a raw OSM element, an accommodation, a search
      request) is a [Record]; a key that the code reads with [in] or [.get]
      is an [option] field; a dict used as a map ([tags] of an element, the
      vocabularies) is a [gmap]; the set of seen names is a [gset].
    - The accommodations are mutable dicts shared between the lists the
      stages pass on: they live in a [heap], and a list of accommodations is
      a list of references into it. *)

From Stdlib Require Import String Ascii List NArith ZArith QArith Qround Lia
  DecimalString Sorted.
From stdpp Require Import base option list gmap strings sorting.
Import ListNotations.

Local Open Scope string_scope.
Local Open Scope list_scope.

(** ** Python strings *)

Module PyStr.

(** Code points of a UTF-8 byte sequence (ill-formed tails are cut). *)
Fixpoint utf8_decode (bs : list N) : list N :=
  match bs with
  | [] => []
  | b0 :: r0 =>
      if (b0 <? 0x80)%N then b0 :: utf8_decode r0
      else if (b0 <? 0xE0)%N then
        match r0 with
        | b1 :: r1 =>
            N.lor (N.shiftl (N.land b0 0x1F) 6) (N.land b1 0x3F)
              :: utf8_decode r1
        | _ => []
        end
      else if (b0 <? 0xF0)%N then
        match r0 with
        | b1 :: b2 :: r2 =>
            N.lor (N.shiftl (N.land b0 0x0F) 12)
              (N.lor (N.shiftl (N.land b1 0x3F) 6) (N.land b2 0x3F))
              :: utf8_decode r2
        | _ => []
        end
      else
        match r0 with
        | b1 :: b2 :: b3 :: r3 =>
            N.lor (N.shiftl (N.land b0 0x07) 18)
              (N.lor (N.shiftl (N.land b1 0x3F) 12)
                 (N.lor (N.shiftl (N.land b2 0x3F) 6) (N.land b3 0x3F)))
              :: utf8_decode r3
        | _ => []
        end
  end.

Definition utf8_encode1 (c : N) : list N :=
  if (c <? 0x80)%N then [c]
  else if (c <? 0x800)%N then
    [N.lor 0xC0 (N.shiftr c 6); N.lor 0x80 (N.land c 0x3F)]
  else if (c <? 0x10000)%N then
    [N.lor 0xE0 (N.shiftr c 12);
     N.lor 0x80 (N.land (N.shiftr c 6) 0x3F);
     N.lor 0x80 (N.land c 0x3F)]
  else
    [N.lor 0xF0 (N.shiftr c 18);
     N.lor 0x80 (N.land (N.shiftr c 12) 0x3F);
     N.lor 0x80 (N.land (N.shiftr c 6) 0x3F);
     N.lor 0x80 (N.land c 0x3F)].

Definition codepoints (s : string) : list N :=
  utf8_decode (map N_of_ascii (list_ascii_of_string s)).

Definition of_codepoints (cs : list N) : string :=
  string_of_list_ascii (map ascii_of_N (concat (map utf8_encode1 cs))).

(** [str.isspace] of one code point: the white space of [split()] and
    [strip()]. *)
Definition isspace (c : N) : bool :=
  ((0x09 <=? c) && (c <=? 0x0D) || (0x1C <=? c) && (c <=? 0x20)
   || (c =? 0x85) || (c =? 0xA0) || (c =? 0x1680)
   || (0x2000 <=? c) && (c <=? 0x200A)
   || (c =? 0x2028) || (c =? 0x2029) || (c =? 0x202F) || (c =? 0x205F)
   || (c =? 0x3000))%N.

(** [str.lower] of one code point, on the alphabets the vocabularies are
    written in: ASCII, Latin-1 and the Vietnamese letters (Latin
    Extended-A/B and Latin Extended Additional U+1EA0..U+1EF9).  Any other
    code point is left as it is. *)
Definition lower1 (c : N) : N :=
  if ((0x41 <=? c) && (c <=? 0x5A))%N then (c + 0x20)%N
  else if ((0xC0 <=? c) && (c <=? 0xDE) && negb (c =? 0xD7))%N
  then (c + 0x20)%N
  else if ((c =? 0x102) || (c =? 0x110) || (c =? 0x128) || (c =? 0x168)
           || (c =? 0x1A0) || (c =? 0x1AF))%N then (c + 1)%N
  else if ((0x1EA0 <=? c) && (c <=? 0x1EF9) && N.even c)%N then (c + 1)%N
  else c.

Definition lower (s : string) : string :=
  of_codepoints (map lower1 (codepoints s)).

Fixpoint lstrip_cp (cs : list N) : list N :=
  match cs with
  | c :: r => if isspace c then lstrip_cp r else cs
  | [] => []
  end.

(** [str.strip()]: white space removed at both ends. *)
Definition strip_cp (cs : list N) : list N :=
  rev (lstrip_cp (rev (lstrip_cp cs))).

Definition strip (s : string) : string :=
  of_codepoints (strip_cp (codepoints s)).

(** [str.split()] without a separator: the maximal runs of code points
    that are not white space, in order; [cur] holds the run being read,
    reversed. *)
Fixpoint split_cp (cur cs : list N) : list (list N) :=
  match cs with
  | [] => match cur with [] => [] | _ => [rev cur] end
  | c :: r =>
      if isspace c
      then match cur with
           | [] => split_cp [] r
           | _ => rev cur :: split_cp [] r
           end
      else split_cp (c :: cur) r
  end.

Definition split (s : string) : list string :=
  map of_codepoints (split_cp [] (codepoints s)).

(** [s.replace(a, b)] for one-character [a] and [b]. *)
Definition replace1 (a b : N) (s : string) : string :=
  of_codepoints (map (fun c => if (c =? a)%N then b else c) (codepoints s)).

(** Truth value of a [str]: non-empty. *)
Definition truthy (s : string) : bool :=
  match s with EmptyString => false | _ => true end.

(** [s.split(sep)[k]] pieces of [s] at a one-byte separator. *)
Fixpoint split_on (sep : ascii) (s : string) : list string :=
  match s with
  | EmptyString => [EmptyString]
  | String c r =>
      if Ascii.eqb c sep then EmptyString :: split_on sep r
      else match split_on sep r with
           | p :: ps => String c p :: ps
           | [] => [String c EmptyString]
           end
  end.
End PyStr.

(** ** Input processing: [src/input_processing.py] *)

Module InputProcessing.

Definition budget_map : gmap string string :=
  list_to_map
    [("rẻ", "low"); ("giá rẻ", "low"); ("cheap", "low");
     ("bình thường", "medium"); ("trung bình", "medium");
     ("normal", "medium");
     ("cao", "high"); ("đắt", "high"); ("sang trọng", "high");
     ("luxury", "high")].

Definition type_map : gmap string string :=
  list_to_map
    [("homestay", "guest_house"); ("nhà nghỉ", "guest_house");
     ("khách sạn", "hotel"); ("hotel", "hotel");
     ("resort", "resort");
     ("villa", "chalet"); ("biệt thự", "chalet");
     ("hostel", "hostel"); ("ký túc xá", "hostel")].

Definition ambiance_map : gmap string string :=
  list_to_map
    [("yên tĩnh", "quiet"); ("quiet", "quiet"); ("peaceful", "quiet");
     ("sôi động", "lively"); ("lively", "lively"); ("vibrant", "lively");
     ("gần biển", "beachfront"); ("beach", "beachfront");
     ("beachfront", "beachfront");
     ("view đẹp", "scenic"); ("scenic", "scenic");
     ("gia đình", "family"); ("family", "family");
     ("romantic", "romantic"); ("lãng mạn", "romantic")].

Record filters := mk_filters {
  f_budget : string;
  f_type : string;
  f_tags : list string
}.

(** The loop over the words of the ambiance text: [tags] is the list built
    so far. *)
Fixpoint ambiance_loop (words : list string) (tags : list string)
  : list string :=
  match words with
  | [] => tags
  | word :: rest =>
      match ambiance_map !! PyStr.lower word with
      | Some tag =>
          if PyStr.truthy tag && negb (bool_decide (tag ∈ tags))
          then ambiance_loop rest (tags ++ [tag])
          else ambiance_loop rest tags
      | None => ambiance_loop rest tags
      end
  end.

Definition normalize_filters (budget_text type_text ambiance_text : string)
  : filters :=
  let budget_tier :=
    default "medium" (budget_map !! PyStr.strip (PyStr.lower budget_text)) in
  let acc_type :=
    default "guest_house" (type_map !! PyStr.strip (PyStr.lower type_text)) in
  let tags :=
    if PyStr.truthy ambiance_text && PyStr.truthy (PyStr.strip ambiance_text)
    then
      let words :=
        map PyStr.strip
          (PyStr.split (PyStr.replace1 0x2C 0x20 ambiance_text)) in
      ambiance_loop words []
    else [] in
  {| f_budget := budget_tier; f_type := acc_type; f_tags := tags |}.

(** The result of geocoding, as [validate_and_geocode] builds it. *)
Record geo_data := mk_geo_data {
  geo_name : string;
  geo_lat : Q;
  geo_lon : Q;
  geo_type : string;
  geo_importance : Q
}.

(** A search request.  [filter_results] and [rank_results] read the key
    [tags] with [.get('tags', [])]: the key may be absent. *)
Record search_request := mk_search_request {
  sr_location_name : string;
  sr_lat : Q;
  sr_lon : Q;
  sr_budget : string;
  sr_type : string;
  sr_tags : option (list string);
  sr_radius : Q;
  sr_max_results : Z
}.

Definition build_search_request (geo : geo_data) (f : filters)
  : search_request :=
  {| sr_location_name := geo_name geo;
     sr_lat := geo_lat geo;
     sr_lon := geo_lon geo;
     sr_budget := f_budget f;
     sr_type := f_type f;
     sr_tags := Some (f_tags f);
     sr_radius := 5000;
     sr_max_results := 10 |}.

End InputProcessing.

(** ** Numbers *)

Module PyNum.
Local Open Scope Q_scope.

(** [a > b] on numbers. *)
Definition gtb (a b : Q) : bool := negb (Qle_bool a b).

(** [max(a, b)]: the first argument unless the second is greater. *)
Definition max (a b : Q) : Q := if gtb b a then b else a.

(** The integer nearest to [x], a tie going to the even one. *)
Definition round_half_even (x : Q) : Z :=
  let f := Qfloor x in
  let r := x - inject_Z f in
  if gtb (1 # 2) r then f
  else if gtb r (1 # 2) then (f + 1)%Z
  else if Z.even f then f else (f + 1)%Z.

(** [round(x, 2)]. *)
Definition round2 (x : Q) : Q :=
  Qred (inject_Z (round_half_even (x * 100)) / 100).

(** [str(n)] of an [int]. *)
Definition str_of_int (n : Z) : string :=
  NilZero.string_of_int (Z.to_int n).

(** The [math] module: total functions here, its domain errors do not
    arise on the exact values of a haversine term. *)
Class MathModule := {
  math_radians : Q -> Q;
  math_sin : Q -> Q;
  math_cos : Q -> Q;
  math_asin : Q -> Q;
  math_sqrt : Q -> Q
}.
End PyNum.

(** ** Helpers: [src/utils.py] *)

Module Utils.
Import PyNum.
Local Open Scope Q_scope.

Definition haversine_distance `{MathModule} (lat1 lon1 lat2 lon2 : Q) : Q :=
  let lat1_rad := math_radians lat1 in
  let lon1_rad := math_radians lon1 in
  let lat2_rad := math_radians lat2 in
  let lon2_rad := math_radians lon2 in
  let dlat := lat2_rad - lat1_rad in
  let dlon := lon2_rad - lon1_rad in
  let a := math_sin (dlat / 2) ^ 2
           + math_cos lat1_rad * math_cos lat2_rad * math_sin (dlon / 2) ^ 2 in
  let c := 2 * math_asin (math_sqrt a) in
  let radius := 6371 in
  radius * c.
End Utils.

(** ** Backend execution: [src/backend_execution.py] *)

Module Backend.
Import PyNum Utils InputProcessing.

(** *** The outside world *)

(** An exception of a [requests] call or of [response.json()], by the
    [except] clause that catches it, with its [str(e)]. *)
Inductive exn :=
| Timeout (msg : string)
| RequestException (msg : string)
| OtherException (msg : string).

Definition exn_str (e : exn) : string :=
  match e with
  | Timeout m | RequestException m | OtherException m => m
  end.

Record response (A : Type) := mk_response {
  status_code : Z;
  json : exn + A
}.
Arguments mk_response {A} _ _.
Arguments status_code {A} _.
Arguments json {A} _.

(** A raw record of the map-data service: the keys [id], [type], [lat],
    [lon] and [tags] are optional. *)
Record element := mk_element {
  el_id : option Z;
  el_type : option string;
  el_lat : option Q;
  el_lon : option Q;
  el_tags : option (gmap string string)
}.

(** The Overpass query text, by its parts: the timeout, the tourism
    categories joined in the regular expression, the [around] filter and
    the output limit. *)
Record overpass_query := mk_overpass_query {
  q_timeout : Z;
  q_tourism_types : list string;
  q_radius : Q;
  q_lat : Q;
  q_lon : Q;
  q_limit : Z
}.

(** What the function does to the world, in order. *)
Inductive event :=
| Post (server_url : string) (query : overpass_query)
| Sleep (seconds : Z).

(** *** Searching *)

Definition overpass_servers : list string :=
  ["https://overpass-api.de/api/interpreter";
   "https://overpass.kumi.systems/api/interpreter";
   "https://overpass.openstreetmap.ru/api/interpreter"].

(** [server_url.split('/')[2]] *)
Definition host (server_url : string) : string :=
  nth 2 (PyStr.split_on "/" server_url) "".

(** One turn of the loop over the servers: either the function returns
    the elements, or the loop goes on with a new [last_error], after the
    events of the turn. *)
Inductive turn :=
| Return (elements : list element)
| Continue (last_error : string) (events : list event).

Definition try_server (server_url : string)
    (outcome : exn + response (option (list element))) : turn :=
  match outcome with
  | inr resp =>
      if (status_code resp =? 200)%Z then
        match json resp with
        | inr data =>
            match data with
            | Some (e :: es) => Return (e :: es)
            | _ =>
                Continue ("Server " +:+ host server_url
                          +:+ " không trả về kết quả") []
            end
        | inl (Timeout _) =>
            Continue ("Server " +:+ host server_url +:+ " timeout") []
        | inl (RequestException m) =>
            Continue ("Lỗi kết nối " +:+ host server_url +:+ ": " +:+ m) []
        | inl (OtherException m) =>
            Continue ("Lỗi không xác định: " +:+ m) []
        end
      else if (status_code resp =? 504)%Z || (status_code resp =? 429)%Z
      then
        Continue ("Server " +:+ host server_url +:+ " quá tải (HTTP "
                  +:+ str_of_int (status_code resp) +:+ ")") [Sleep 2]
      else
        Continue ("Server " +:+ host server_url +:+ " trả về lỗi HTTP "
                  +:+ str_of_int (status_code resp)) []
  | inl (Timeout _) =>
      Continue ("Server " +:+ host server_url +:+ " timeout") []
  | inl (RequestException m) =>
      Continue ("Lỗi kết nối " +:+ host server_url +:+ ": " +:+ m) []
  | inl (OtherException m) =>
      Continue ("Lỗi không xác định: " +:+ m) []
  end.

(** [str(x)] of [last_error], which is [None] or a [str]. *)
Definition str_of_last_error (last_error : option string) : string :=
  default "None" last_error.

(** The query built from the request, before the loop. *)
Definition build_query (req : search_request) : overpass_query :=
  let lat := sr_lat req in
  let lon := sr_lon req in
  let acc_type := sr_type req in
  let radius := sr_radius req in
  let tourism_types :=
    [acc_type; "hotel"; "guest_house"; "apartment"; "hostel"] in
  {| q_timeout := 20; q_tourism_types := tourism_types;
     q_radius := radius; q_lat := lat; q_lon := lon; q_limit := 50 |}.

Section Searching.
(** [requests.post(server_url, data={'data': query}, ...)] *)
Variable requests_post :
  string -> overpass_query -> exn + response (option (list element)).

Fixpoint server_loop (query : overpass_query) (servers : list string)
    (last_error : option string) (trace : list event)
  : (option (list element) * option string) * list event :=
  match servers with
  | [] =>
      ((None,
        Some ("Không thể kết nối Overpass API. Lỗi cuối: "
              +:+ str_of_last_error last_error)),
       trace)
  | server_url :: rest =>
      let trace := trace ++ [Post server_url query] in
      match try_server server_url (requests_post server_url query) with
      | Return elements => ((Some elements, None), trace)
      | Continue err events =>
          server_loop query rest (Some err) (trace ++ events)
      end
  end.

Definition search_accommodations (req : search_request)
  : (option (list element) * option string) * list event :=
  server_loop (build_query req) overpass_servers None [].
End Searching.

(** *** The Nominatim fallback *)

(** The values found in a place of the fallback service, and the
    conversions [int(_)] and [float(_)], which fail with a message. *)
Class Builtins := {
  pyobj : Type;
  py_int : pyobj -> string + Z;
  py_float : pyobj -> string + Q
}.

Record place `{Builtins} := mk_place {
  pl_place_id : option pyobj;
  pl_lat : option pyobj;
  pl_lon : option pyobj;
  pl_display_name : option string
}.

Record nominatim_params := mk_nominatim_params {
  np_q : string;
  np_format : string;
  np_limit : Z;
  np_addressdetails : Z
}.

Section Fallback.
Context `{Builtins}.

(** The loop that converts the places; an exception of a conversion
    leaves the loop with its message. *)
Fixpoint convert_loop (data : list place) (elements : list element)
  : string + list element :=
  match data with
  | [] => inr elements
  | item :: rest =>
      match pl_lat item, pl_lon item with
      | Some item_lat, Some item_lon =>
          match
            match pl_place_id item with
            | Some v => py_int v
            | None => inr 0%Z
            end
          with
          | inl msg => inl msg
          | inr id =>
              match py_float item_lat with
              | inl msg => inl msg
              | inr lat =>
                  match py_float item_lon with
                  | inl msg => inl msg
                  | inr lon =>
                      let element :=
                        {| el_id := Some id;
                           el_type := Some "node";
                           el_lat := Some lat;
                           el_lon := Some lon;
                           el_tags :=
                             Some (<["name" :=
                                       default "Unnamed"
                                         (pl_display_name item)]>
                                     (<["tourism" := "hotel"]> ∅)) |} in
                      convert_loop rest (elements ++ [element])
                  end
              end
          end
      | _, _ => convert_loop rest elements
      end
  end.

(** [requests.get(url, params=params, ...)]; the pause of one second
    before it has no part in the result. *)
Variable requests_get :
  string -> nominatim_params -> exn + response (list place).

Definition search_accommodations_nominatim_fallback (req : search_request)
  : option (list element) * option string :=
  let location_name := sr_location_name req in
  let url := "https://nominatim.openstreetmap.org/search" in
  let params :=
    {| np_q := "hotel " +:+ location_name; np_format := "json";
       np_limit := 20; np_addressdetails := 1 |} in
  match requests_get url params with
  | inl e => (None, Some ("Lỗi Nominatim fallback: " +:+ exn_str e))
  | inr resp =>
      if negb (status_code resp =? 200)%Z then
        (None, Some ("Nominatim fallback thất bại: HTTP "
                     +:+ str_of_int (status_code resp)))
      else
        match json resp with
        | inl e => (None, Some ("Lỗi Nominatim fallback: " +:+ exn_str e))
        | inr [] => (None, Some "Không tìm thấy kết quả")
        | inr data =>
            match convert_loop data [] with
            | inl msg => (None, Some ("Lỗi Nominatim fallback: " +:+ msg))
            | inr elements => (Some elements, None)
            end
        end
  end.
End Fallback.

(** *** Normalize output *)

(** An accommodation dict; the key [rank] is added by [rank_results]. *)
Record accommodation := mk_accommodation {
  acc_id : Z;
  acc_name : string;
  acc_location : Q * Q;
  acc_type : string;
  acc_tags : list string;
  acc_score : Q;
  acc_distance : Q;
  acc_source : string;
  acc_rank : option nat
}.

(** [tags.get('name', tags.get('addr:street', 'Unnamed'))] *)
Definition extract_name (tags : gmap string string) : string :=
  default (default "Unnamed" (tags !! "addr:street")) (tags !! "name").

(** The accommodation built from an element that has tags and
    coordinates. *)
Definition build_accommodation (element : element)
    (tags : gmap string string) (name : string) (lat lon : Q)
  : accommodation :=
  let tourism_type := default "accommodation" (tags !! "tourism") in
  let acc_tags := [tourism_type] in
  let acc_tags :=
    match tags !! "amenity" with
    | Some v => acc_tags ++ [v]
    | None => acc_tags
    end in
  let acc_tags :=
    match tags !! "building" with
    | Some v => acc_tags ++ [v]
    | None => acc_tags
    end in
  {| acc_id := default 0%Z (el_id element);
     acc_name := name;
     acc_location := (lat, lon);
     acc_type := tourism_type;
     acc_tags := acc_tags;
     acc_score := 0;
     acc_distance := 0;
     acc_source := "osm";
     acc_rank := None |}.

Fixpoint normalize_loop (osm_elements : list element)
    (accommodations : list accommodation) (seen_names : gset string)
  : list accommodation :=
  match osm_elements with
  | [] => accommodations
  | element :: rest =>
      match el_tags element with
      | None => normalize_loop rest accommodations seen_names
      | Some tags =>
          let name := extract_name tags in
          if bool_decide (name ∈ seen_names)
          then normalize_loop rest accommodations seen_names
          else
            match el_lat element, el_lon element with
            | Some lat, Some lon =>
                let accommodation :=
                  build_accommodation element tags name lat lon in
                normalize_loop rest (accommodations ++ [accommodation])
                  ({[name]} ∪ seen_names)
            | _, _ => normalize_loop rest accommodations seen_names
            end
      end
  end.

Definition normalize_osm_data (osm_elements : list element)
  : list accommodation :=
  normalize_loop osm_elements [] ∅.

(** *** The store of the accommodation dicts *)

Definition loc := nat.
Definition heap := loc -> accommodation.

#[global] Instance loc_eq_dec : EqDecision loc := Nat.eq_dec.

(** [h[l] := a] *)
Definition upd (h : heap) (l : loc) (a : accommodation) : heap :=
  fun l' => if Nat.eqb l' l then a else h l'.

(** [acc['distance'] = d], [acc['score'] = s], [acc['rank'] = r] *)
Definition set_distance (d : Q) (a : accommodation) : accommodation :=
  {| acc_id := acc_id a; acc_name := acc_name a;
     acc_location := acc_location a; acc_type := acc_type a;
     acc_tags := acc_tags a; acc_score := acc_score a;
     acc_distance := d; acc_source := acc_source a;
     acc_rank := acc_rank a |}.

Definition set_score (s : Q) (a : accommodation) : accommodation :=
  {| acc_id := acc_id a; acc_name := acc_name a;
     acc_location := acc_location a; acc_type := acc_type a;
     acc_tags := acc_tags a; acc_score := s;
     acc_distance := acc_distance a; acc_source := acc_source a;
     acc_rank := acc_rank a |}.

Definition set_rank (r : nat) (a : accommodation) : accommodation :=
  {| acc_id := acc_id a; acc_name := acc_name a;
     acc_location := acc_location a; acc_type := acc_type a;
     acc_tags := acc_tags a; acc_score := acc_score a;
     acc_distance := acc_distance a; acc_source := acc_source a;
     acc_rank := Some r |}.

(** The dicts of a fresh list stored at the references [n], [n+1], ... *)
Fixpoint store_all (h : heap) (n : loc) (accs : list accommodation)
  : heap * list loc :=
  match accs with
  | [] => (h, [])
  | a :: rest =>
      let '(h', ls) := store_all (upd h n a) (S n) rest in
      (h', n :: ls)
  end.

(** *** Filter results *)

(** [search_request.get('tags', [])] *)
Definition required_tags (req : search_request) : list string :=
  default [] (sr_tags req).

(** [any(tag in acc['tags'] for tag in required_tags)] *)
Definition has_match (a : accommodation) (required : list string) : bool :=
  existsb (fun tag => bool_decide (tag ∈ acc_tags a)) required.

Section Filter.
Context `{MathModule}.
Local Open Scope Q_scope.

Fixpoint filter_loop (req : search_request) (h : heap)
    (accommodations : list loc) (filtered : list loc)
  : heap * list loc :=
  match accommodations with
  | [] => (h, filtered)
  | acc :: rest =>
      let center_lat := sr_lat req in
      let center_lon := sr_lon req in
      let max_distance := sr_radius req / 1000 in
      let '(acc_lat, acc_lon) := acc_location (h acc) in
      let distance :=
        haversine_distance center_lat center_lon acc_lat acc_lon in
      if gtb distance max_distance
      then filter_loop req h rest filtered
      else
        if match required_tags req with [] => false | _ => true end
           && negb (has_match (h acc) (required_tags req))
        then filter_loop req h rest filtered
        else
          filter_loop req (upd h acc (set_distance distance (h acc)))
            rest (filtered ++ [acc])
  end.

Definition filter_results (h : heap) (accommodations : list loc)
    (req : search_request) : heap * list loc :=
  filter_loop req h accommodations [].
End Filter.

(** *** Ranking *)

Section Ranking.
Local Open Scope Q_scope.

(** The body of the scoring loop, up to the assignment. *)
Definition compute_score (req : search_request) (a : accommodation) : Q :=
  let score := 10 in
  let distance := acc_distance a in
  let proximity_score := PyNum.max 0 (5 - distance) in
  let score := score + proximity_score in
  let acc_tags : gset string := list_to_set (acc_tags a) in
  let required_tags_set : gset string :=
    list_to_set (required_tags req) in
  let tag_matches := size (acc_tags ∩ required_tags_set) in
  let tag_score := inject_Z (Z.of_nat tag_matches) * 2 in
  let score := score + tag_score in
  let score :=
    if bool_decide (acc_type a = sr_type req) then score + 3 else score in
  let score :=
    if negb (bool_decide (acc_name a = "Unnamed")) then score + 1
    else score in
  round2 score.

Fixpoint score_loop (req : search_request) (h : heap)
    (accommodations : list loc) : heap :=
  match accommodations with
  | [] => h
  | acc :: rest =>
      score_loop req (upd h acc (set_score (compute_score req (h acc)) (h acc)))
        rest
  end.

(** [sorted(_, key=key, reverse=True)]: the sort is stable, so it is the
    insertion of each element before the first one of a smaller or equal
    key among those that followed it. *)
Fixpoint insert_desc (key : loc -> Q) (x : loc) (l : list loc)
  : list loc :=
  match l with
  | [] => [x]
  | y :: r =>
      if gtb (key y) (key x) then y :: insert_desc key x r else x :: l
  end.

Definition sorted_desc (key : loc -> Q) (l : list loc) : list loc :=
  foldr (insert_desc key) [] l.

(** [for i, acc in enumerate(top_results): acc['rank'] = i + 1], from
    index [i] on. *)
Fixpoint rank_loop (h : heap) (top_results : list loc) (i : nat) : heap :=
  match top_results with
  | [] => h
  | acc :: rest =>
      rank_loop (upd h acc (set_rank (i + 1) (h acc))) rest (S i)
  end.

Definition rank_results (h : heap) (accommodations : list loc)
    (req : search_request) : heap * list loc :=
  match accommodations with
  | [] => (h, [])
  | _ =>
      let h := score_loop req h accommodations in
      let sorted_accs :=
        sorted_desc (fun x => acc_score (h x)) accommodations in
      let top_results := take 5 sorted_accs in
      let h := rank_loop h top_results 0 in
      (h, top_results)
  end.
End Ranking.
End Backend.

(** * Properties *)

(** ** The filter normalizer *)

Module InputProcessingFacts.
Import PyStr InputProcessing.

(** The words [split()] gives hold no white space: a key of the
    vocabulary that is written in two words is never looked up. *)
Lemma split_cp_no_space cs : forall cur,
  Forall (fun c => isspace c = false) cur ->
  Forall (Forall (fun c => isspace c = false)) (split_cp cur cs).
Proof.
  induction cs as [|c r IH]; intros cur Hcur; simpl.
  - destruct cur; constructor; [|constructor].
    apply Forall_rev. exact Hcur.
  - destruct (isspace c) eqn:Hc.
    + destruct cur.
      * apply IH. constructor.
      * constructor; [apply Forall_rev; exact Hcur | apply IH; constructor].
    + apply IH. constructor; assumption.
Qed.

(** The tags are collected without repetition. *)
Lemma ambiance_loop_NoDup words : forall tags,
  NoDup tags -> NoDup (ambiance_loop words tags).
Proof.
  induction words as [|w r IH]; intros tags Hnd; simpl; [exact Hnd|].
  destruct (ambiance_map !! lower w) as [tag|]; [|apply IH; exact Hnd].
  destruct (truthy tag); simpl; [|apply IH; exact Hnd].
  case_bool_decide; simpl; [apply IH; exact Hnd|].
  apply IH. apply NoDup_app. split; [exact Hnd|]. split.
  - intros x Hx Hx'. apply list_elem_of_singleton in Hx'. subst. tauto.
  - apply NoDup_singleton.
Qed.

(** C1, on the code: at the ambiance text "yên tĩnh, gần biển, xyz" the
    text is cut at commas and at white space into the five words yên,
    tĩnh, gần, biển and xyz, none of them is in the ambiance vocabulary,
    and [normalize_filters] returns the empty tag list (budget low, type
    chalet), not the list of quiet and beachfront. *)
Theorem normalize_filters_two_word_phrases :
  split (replace1 0x2C 0x20 "yên tĩnh, gần biển, xyz")
    = ["yên"; "tĩnh"; "gần"; "biển"; "xyz"]
  /\ normalize_filters "rẻ" "villa" "yên tĩnh, gần biển, xyz"
     = {| f_budget := "low"; f_type := "chalet"; f_tags := [] |}
  /\ f_tags (normalize_filters "rẻ" "villa" "yên tĩnh, gần biển, xyz")
     <> ["quiet"; "beachfront"].
Proof.
  split; [vm_compute; reflexivity|].
  split; [vm_compute; reflexivity|].
  vm_compute. discriminate.
Qed.

(** The same words, one per phrase of the vocabulary, are recognised. *)
Example normalize_filters_single_words :
  f_tags (normalize_filters "Rẻ" "Villa" "Quiet, beach  quiet, xyz")
  = ["quiet"; "beachfront"].
Proof. vm_compute. reflexivity. Qed.
End InputProcessingFacts.

(** ** The retrieval engine *)

Module SearchingFacts.
Import InputProcessing Backend.

(** An answer of a mirror with success status and at least one record. *)
Definition yields (outcome : exn + response (option (list element)))
    (records : list element) : Prop :=
  outcome = inr (mk_response 200 (inr (Some records))) /\ records <> [].

(** The servers queried along a trace, in order. *)
Definition posted (trace : list event) : list string :=
  omap (fun e => match e with Post u _ => Some u | Sleep _ => None end) trace.

Lemma posted_app t1 t2 : posted (t1 ++ t2) = posted t1 ++ posted t2.
Proof. unfold posted. apply omap_app. Qed.

Lemma try_server_yields srv outcome records :
  yields outcome records -> try_server srv outcome = Return records.
Proof.
  intros [-> Hne]. simpl. destruct records; [contradiction | reflexivity].
Qed.

(** Any other answer makes the loop go on, with a reason, and asks no
    server. *)
Lemma try_server_fails srv outcome :
  (forall records, ~ yields outcome records) ->
  exists reason events,
    try_server srv outcome = Continue reason events /\ posted events = [].
Proof.
  intros Hno. destruct outcome as [e | [st js]].
  - destruct e; simpl; eauto.
  - unfold try_server; simpl.
    destruct (st =? 200)%Z eqn:H200.
    + apply Z.eqb_eq in H200. subst st.
      destruct js as [e | [[|r rs] |]]; try (destruct e); eauto.
      exfalso. apply (Hno (r :: rs)). split; [reflexivity | discriminate].
    + destruct ((st =? 504)%Z || (st =? 429)%Z); eauto.
Qed.

Section Loop.
Variable requests_post :
  string -> overpass_query -> exn + response (option (list element)).
Variable query : overpass_query.

Lemma server_loop_first_success servers :
  forall i srv records last_error trace,
    servers !! i = Some srv ->
    yields (requests_post srv query) records ->
    (forall j srv', j < i -> servers !! j = Some srv' ->
       forall rs, ~ yields (requests_post srv' query) rs) ->
    exists trace',
      server_loop requests_post query servers last_error trace
        = ((Some records, None), trace')
      /\ posted trace' = posted trace ++ take (S i) servers.
Proof.
  induction servers as [|s rest IH]; intros i srv records le tr Hi Hy Hbefore.
  - discriminate.
  - destruct i as [|i]; simpl in Hi.
    + injection Hi as ->. simpl.
      rewrite (try_server_yields _ _ _ Hy).
      eexists; split; [reflexivity|].
      rewrite posted_app. reflexivity.
    + simpl.
      destruct (try_server_fails s (requests_post s query))
        as (reason & events & -> & Hev).
      { apply (Hbefore 0 s); [lia | reflexivity]. }
      destruct (IH i srv records (Some reason)
                  ((tr ++ [Post s query]) ++ events) Hi Hy)
        as (tr' & Heq & Hposted).
      { intros j srv' Hj Hl. apply (Hbefore (S j) srv'); [lia | exact Hl]. }
      exists tr'. split; [exact Heq|].
      rewrite Hposted, !posted_app, Hev, app_nil_r, <- app_assoc.
      reflexivity.
Qed.

(** When every server fails, the message carries the reason of the last
    one, and every server was asked. *)
Lemma server_loop_all_fail servers :
  forall last_srv last_error trace,
    last servers = Some last_srv ->
    (forall srv, srv ∈ servers ->
       forall rs, ~ yields (requests_post srv query) rs) ->
    exists reason events trace',
      try_server last_srv (requests_post last_srv query)
        = Continue reason events
      /\ server_loop requests_post query servers last_error trace
         = ((None,
             Some ("Không thể kết nối Overpass API. Lỗi cuối: "
                   +:+ reason)), trace')
      /\ posted trace' = posted trace ++ servers.
Proof.
  induction servers as [|s rest IH]; intros last_srv le tr Hlast Hall.
  - discriminate.
  - simpl.
    destruct (try_server_fails s (requests_post s query))
      as (reason & events & Hs & Hev).
    { apply Hall. left. }
    rewrite Hs.
    destruct rest as [|s' rest'].
    + injection Hlast as <-.
      exists reason, events. eexists. split; [exact Hs|].
      split; [reflexivity|].
      rewrite !posted_app, Hev, app_nil_r. reflexivity.
    + destruct (IH last_srv (Some reason)
                  ((tr ++ [Post s query]) ++ events))
        as (reason' & events' & tr' & Ht & Heq & Hposted).
      { exact Hlast. }
      { intros srv Hin. apply Hall. right. exact Hin. }
      exists reason', events', tr'. split; [exact Ht|].
      split; [exact Heq|].
      rewrite Hposted, !posted_app, Hev, app_nil_r, <- app_assoc.
      reflexivity.
Qed.
End Loop.

(** C3: when the mirror at position [i] of the fixed endpoint list is the
    first to answer with success status and at least one record (every
    mirror before it fails, answers with another status or with no
    record), [search_accommodations] returns exactly the records of that
    mirror, without an error message, and the servers it has queried are
    the first [i + 1] of the list: no mirror after it is queried. *)
Theorem search_accommodations_first_success
    (requests_post :
       string -> overpass_query -> exn + response (option (list element)))
    (req : search_request) (i : nat) (srv : string)
    (records : list element) :
  overpass_servers !! i = Some srv ->
  yields (requests_post srv (build_query req)) records ->
  (forall j srv', j < i -> overpass_servers !! j = Some srv' ->
     forall rs, ~ yields (requests_post srv' (build_query req)) rs) ->
  exists trace,
    search_accommodations requests_post req = ((Some records, None), trace)
    /\ posted trace = take (S i) overpass_servers.
Proof.
  intros Hi Hy Hbefore. unfold search_accommodations.
  destruct (server_loop_first_success requests_post (build_query req)
              overpass_servers i srv records None [] Hi Hy Hbefore)
    as (tr & Heq & Hposted).
  exists tr. split; [exact Heq | exact Hposted].
Qed.

(** C6: when no mirror answers with success status and at least one
    record, [search_accommodations] returns no records and the message
    "Không thể kết nối Overpass API. Lỗi cuối: " followed by the reason
    recorded for the last mirror of the list, after asking every mirror;
    the reasons of the earlier mirrors are not in the result: any other
    run in which all mirrors fail and the last one answers the same
    returns the same result. *)
Theorem search_accommodations_last_reason
    (requests_post :
       string -> overpass_query -> exn + response (option (list element)))
    (req : search_request) (last_srv : string) :
  last overpass_servers = Some last_srv ->
  (forall srv, srv ∈ overpass_servers ->
     forall rs, ~ yields (requests_post srv (build_query req)) rs) ->
  exists reason events trace,
    try_server last_srv (requests_post last_srv (build_query req))
      = Continue reason events
    /\ search_accommodations requests_post req
       = ((None,
           Some ("Không thể kết nối Overpass API. Lỗi cuối: " +:+ reason)),
          trace)
    /\ posted trace = overpass_servers
    /\ forall requests_post',
         (forall srv, srv ∈ overpass_servers ->
            forall rs, ~ yields (requests_post' srv (build_query req)) rs) ->
         requests_post' last_srv (build_query req)
           = requests_post last_srv (build_query req) ->
         (search_accommodations requests_post' req).1
           = (search_accommodations requests_post req).1.
Proof.
  intros Hlast Hall. unfold search_accommodations.
  destruct (server_loop_all_fail requests_post (build_query req)
              overpass_servers last_srv None [] Hlast Hall)
    as (reason & events & tr & Ht & Heq & Hposted).
  exists reason, events, tr. repeat split; try assumption.
  intros post' Hall' Hsame.
  destruct (server_loop_all_fail post' (build_query req)
              overpass_servers last_srv None [] Hlast Hall')
    as (reason' & events' & tr' & Ht' & Heq' & _).
  rewrite Heq, Heq'. simpl.
  rewrite Hsame, Ht in Ht'. injection Ht' as <- _. reflexivity.
Qed.
(** Three mirrors: the first answers with no record, the second is
    overloaded, the third answers with two records. *)
Definition example_request : search_request :=
  {| sr_location_name := "Vũng Tàu";
     sr_lat := 10346 # 1000; sr_lon := 107084 # 1000;
     sr_budget := "low"; sr_type := "hotel";
     sr_tags := Some ["hotel"; "restaurant"];
     sr_radius := 5000; sr_max_results := 10 |}.

Definition example_records : list element :=
  [ {| el_id := Some 11%Z; el_type := Some "node";
       el_lat := Some (10350 # 1000); el_lon := Some (107080 # 1000);
       el_tags := Some (<["name" := "Sea Hotel"]>
                          (<["tourism" := "hotel"]> ∅)) |};
    {| el_id := Some 12%Z; el_type := Some "node";
       el_lat := Some (10340 # 1000); el_lon := Some (107090 # 1000);
       el_tags := Some (<["tourism" := "hostel"]> ∅) |} ].

Definition third_mirror_answers (server_url : string) (_ : overpass_query)
  : exn + response (option (list element)) :=
  if String.eqb server_url "https://overpass-api.de/api/interpreter"
  then inr (mk_response 200 (inr (Some [])))
  else if String.eqb server_url "https://overpass.kumi.systems/api/interpreter"
  then inr (mk_response 504 (inl (OtherException "")))
  else inr (mk_response 200 (inr (Some example_records))).

(** Three mirrors that fail: a timeout, a rate limit, no record. *)
Definition no_mirror_answers (server_url : string) (_ : overpass_query)
  : exn + response (option (list element)) :=
  if String.eqb server_url "https://overpass-api.de/api/interpreter"
  then inl (Timeout "timed out")
  else if String.eqb server_url "https://overpass.kumi.systems/api/interpreter"
  then inr (mk_response 429 (inl (OtherException "")))
  else inr (mk_response 200 (inr (Some []))).

Lemma search_accommodations_first_success_witness :
  exists trace,
    search_accommodations third_mirror_answers example_request
      = ((Some example_records, None), trace)
    /\ posted trace = take 3 overpass_servers.
Proof.
  apply (search_accommodations_first_success third_mirror_answers
           example_request 2
           "https://overpass.openstreetmap.ru/api/interpreter"
           example_records).
  - reflexivity.
  - split; [reflexivity | discriminate].
  - intros j srv' Hj Hl rs [Heq Hne].
    destruct j as [|[|j]]; [| | lia];
      injection Hl as <-; cbv in Heq; congruence.
Defined.

Example search_accommodations_third_mirror :
  search_accommodations third_mirror_answers example_request
  = ((Some example_records, None),
     [Post "https://overpass-api.de/api/interpreter"
        (build_query example_request);
      Post "https://overpass.kumi.systems/api/interpreter"
        (build_query example_request);
      Sleep 2;
      Post "https://overpass.openstreetmap.ru/api/interpreter"
        (build_query example_request)]).
Proof. reflexivity. Qed.

Lemma search_accommodations_last_reason_witness :
  exists reason events trace,
    try_server "https://overpass.openstreetmap.ru/api/interpreter"
      (no_mirror_answers "https://overpass.openstreetmap.ru/api/interpreter"
         (build_query example_request))
      = Continue reason events
    /\ search_accommodations no_mirror_answers example_request
       = ((None,
           Some ("Không thể kết nối Overpass API. Lỗi cuối: " +:+ reason)),
          trace)
    /\ posted trace = overpass_servers
    /\ forall requests_post',
         (forall srv, srv ∈ overpass_servers ->
            forall rs,
              ~ yields (requests_post' srv (build_query example_request)) rs) ->
         requests_post' "https://overpass.openstreetmap.ru/api/interpreter"
           (build_query example_request)
           = no_mirror_answers
               "https://overpass.openstreetmap.ru/api/interpreter"
               (build_query example_request) ->
         (search_accommodations requests_post' example_request).1
           = (search_accommodations no_mirror_answers example_request).1.
Proof.
  apply (search_accommodations_last_reason no_mirror_answers example_request
           "https://overpass.openstreetmap.ru/api/interpreter").
  - reflexivity.
  - intros srv Hin rs [Heq Hne]. unfold overpass_servers in Hin.
    repeat (apply elem_of_cons in Hin as [-> | Hin]);
      [cbv in Heq; congruence .. | inversion Hin].
Defined.

Example search_accommodations_all_fail :
  (search_accommodations no_mirror_answers example_request).1
  = (None,
     Some "Không thể kết nối Overpass API. Lỗi cuối: Server overpass.openstreetmap.ru không trả về kết quả").
Proof. reflexivity. Qed.
End SearchingFacts.

(** ** The fallback retrieval path *)

Module FallbackFacts.
Import InputProcessing Backend.

Section Reshape.
Context `{Builtins}.

(** A result that carries both coordinates. *)
Definition has_coordinates (item : place) : Prop :=
  is_Some (pl_lat item) /\ is_Some (pl_lon item).

#[local] Instance has_coordinates_dec item : Decision (has_coordinates item).
Proof. unfold has_coordinates. apply _. Defined.

(** [el] is the raw record made of [item]: the identifier and the
    coordinates converted, the category tag "hotel", the name taken from the
    display string. *)
Definition reshaped (item : place) (el : element) : Prop :=
  exists id lat lon v_lat v_lon,
    match pl_place_id item with
    | Some v => py_int v = inr id
    | None => id = 0%Z
    end
    /\ pl_lat item = Some v_lat /\ py_float v_lat = inr lat
    /\ pl_lon item = Some v_lon /\ py_float v_lon = inr lon
    /\ el = {| el_id := Some id;
               el_type := Some "node";
               el_lat := Some lat;
               el_lon := Some lon;
               el_tags :=
                 Some (<["name" := default "Unnamed" (pl_display_name item)]>
                         (<["tourism" := "hotel"]> ∅)) |}.

Lemma convert_loop_reshapes data : forall elements,
  Forall (fun item => exists el, reshaped item el)
    (filter has_coordinates data) ->
  exists new,
    convert_loop data elements = inr (elements ++ new)
    /\ Forall2 reshaped (filter has_coordinates data) new.
Proof.
  induction data as [|item rest IH]; intros elements Hconv.
  - exists []. rewrite app_nil_r. split; [reflexivity | constructor].
  - rewrite filter_cons in *. simpl.
    destruct (decide (has_coordinates item)) as [Hc | Hc].
    + apply Forall_cons in Hconv as [Hitem Hrest].
      destruct Hitem as (el & id & lat & lon & vla & vlo
                         & Hid & Hla & Hfla & Hlo & Hflo & ->).
      rewrite Hla, Hlo, Hfla, Hflo.
      assert (Hid' : match pl_place_id item with
                     | Some v => py_int v
                     | None => inr 0%Z
                     end = inr id).
      { destruct (pl_place_id item); [exact Hid | subst; reflexivity]. }
      rewrite Hid'.
      destruct (IH (elements ++ [ {|
                    el_id := Some id; el_type := Some "node";
                    el_lat := Some lat; el_lon := Some lon;
                    el_tags :=
                      Some (<["name" := default "Unnamed"
                                          (pl_display_name item)]>
                              (<["tourism" := "hotel"]> ∅)) |} ]) Hrest)
        as (new & Heq & Hall).
      eexists (_ :: new). rewrite Heq, <- app_assoc. split; [reflexivity|].
      constructor; [|exact Hall].
      exists id, lat, lon, vla, vlo. repeat split; assumption.
    + destruct (IH elements Hconv) as (new & Heq & Hall).
      exists new. split; [|exact Hall].
      destruct (pl_lat item) eqn:Hla, (pl_lon item) eqn:Hlo; try exact Heq.
      exfalso. apply Hc. unfold has_coordinates. rewrite Hla, Hlo.
      split; eexists; reflexivity.
Qed.

End Reshape.

(** The numbers of a JSON answer, and [null]: [int(_)] truncates a number,
    both conversions fail on [null]. *)
#[local] Instance json_number_or_null : Builtins :=
  {| pyobj := option Q;
     py_int v :=
       match v with
       | Some q => inr (if Qle_bool 0 q then Qfloor q else Qceiling q)
       | None =>
           inl "int() argument must be a string, a bytes-like object or a real number, not 'NoneType'"
       end;
     py_float v :=
       match v with
       | Some q => inr q
       | None =>
           inl "float() argument must be a string or a real number, not 'NoneType'"
       end |}.

Definition example_places : list (@place json_number_or_null) :=
  [ {| pl_place_id := Some (Some 7%Q); pl_lat := Some (Some (10350 # 1000));
       pl_lon := Some (Some (107080 # 1000));
       pl_display_name := Some "Sea Hotel, Vũng Tàu" |};
    {| pl_place_id := None; pl_lat := Some (Some (10340 # 1000));
       pl_lon := None; pl_display_name := Some "Hotel B" |};
    {| pl_place_id := None; pl_lat := Some (Some (10360 # 1000));
       pl_lon := Some (Some (107070 # 1000)); pl_display_name := None |};
    {| pl_place_id := Some (Some 9%Q); pl_lat := None; pl_lon := None;
       pl_display_name := Some "Hotel D" |} ].

Definition example_elements : list element :=
  [ {| el_id := Some 7%Z; el_type := Some "node";
       el_lat := Some (10350 # 1000); el_lon := Some (107080 # 1000);
       el_tags := Some (<["name" := "Sea Hotel, Vũng Tàu"]>
                          (<["tourism" := "hotel"]> ∅)) |};
    {| el_id := Some 0%Z; el_type := Some "node";
       el_lat := Some (10360 # 1000); el_lon := Some (107070 # 1000);
       el_tags := Some (<["name" := "Unnamed"]>
                          (<["tourism" := "hotel"]> ∅)) |} ].

Example fallback_example :
  @search_accommodations_nominatim_fallback json_number_or_null
    (fun _ _ => inr (mk_response 200 (inr example_places)))
    SearchingFacts.example_request
  = (Some example_elements, None).
Proof. reflexivity. Qed.



(** A coordinate that does not convert makes the whole call fail. *)
Example fallback_conversion_failure :
  @search_accommodations_nominatim_fallback json_number_or_null
    (fun _ _ =>
       inr (mk_response 200
              (inr [ {| pl_place_id := None; pl_lat := Some None;
                        pl_lon := Some (Some 107%Q); pl_display_name := None |} ])))
    SearchingFacts.example_request
  = (None,
     Some "Lỗi Nominatim fallback: float() argument must be a string or a real number, not 'NoneType'").
Proof. reflexivity. Qed.
End FallbackFacts.

(** ** The normalizer *)

Module NormalizeFacts.
Import Backend.

(** The accommodation a raw record stands for: none when the record has
    no tag payload or no coordinate pair of its own. *)
Definition accommodation_of (e : element) : option accommodation :=
  match el_tags e, el_lat e, el_lon e with
  | Some tags, Some lat, Some lon =>
      Some (build_accommodation e tags (extract_name tags) lat lon)
  | _, _, _ => None
  end.

(** The record at position [i] is the first one of its name among those
    that stand for an accommodation. *)
Definition first_of_its_name (els : list element) (i : nat)
    (a : accommodation) : Prop :=
  forall j e' a', j < i -> els !! j = Some e' ->
    accommodation_of e' = Some a' -> acc_name a' <> acc_name a.

Lemma accommodation_of_name e a tags :
  el_tags e = Some tags -> accommodation_of e = Some a ->
  acc_name a = extract_name tags.
Proof.
  unfold accommodation_of. intros ->.
  destruct (el_lat e), (el_lon e); try discriminate.
  intros [= <-]. reflexivity.
Qed.

(** Skipping a record that is not emitted: the positions shift by one. *)
Lemma emitted_shift (e : element) (rest : list element) (seen : gset string)
    (a : accommodation) :
  (forall a0, accommodation_of e = Some a0 -> acc_name a0 ∈ seen) ->
  (exists i e0, (e :: rest) !! i = Some e0 /\ accommodation_of e0 = Some a
                /\ (acc_name a ∉ seen) /\ first_of_its_name (e :: rest) i a)
  <-> (exists i e0, rest !! i = Some e0 /\ accommodation_of e0 = Some a
                    /\ (acc_name a ∉ seen) /\ first_of_its_name rest i a).
Proof.
  intros Hskip. split.
  - intros (i & e0 & Hi & Ha & Hn & Hfirst). destruct i as [|i].
    + simpl in Hi. injection Hi as <-. exfalso. apply Hn, Hskip, Ha.
    + exists i, e0. repeat split; try assumption.
      intros j e' a' Hj Hl. apply (Hfirst (S j) e' a'); [lia | exact Hl].
  - intros (i & e0 & Hi & Ha & Hn & Hfirst).
    exists (S i), e0. repeat split; try assumption.
    intros j e' a' Hj Hl Ha'. destruct j as [|j].
    + simpl in Hl. injection Hl as <-.
      intros Heq. apply Hn. rewrite <- Heq. apply Hskip, Ha'.
    + apply (Hfirst j e' a'); [lia | exact Hl | exact Ha'].
Qed.

Lemma normalize_loop_spec els : forall accs (seen : gset string),
  (forall n, n ∈ seen <-> n ∈ (acc_name <$> accs)) ->
  NoDup (acc_name <$> accs) ->
  NoDup (acc_name <$> normalize_loop els accs seen)
  /\ forall a,
       a ∈ normalize_loop els accs seen
       <-> a ∈ accs
           \/ exists i e, els !! i = Some e /\ accommodation_of e = Some a
                          /\ (acc_name a ∉ seen) /\ first_of_its_name els i a.
Proof.
  induction els as [|e rest IH]; intros accs seen Hseen Hnd.
  - simpl. split; [exact Hnd|]. intros a. split; [tauto|].
    intros [Ha | (i & e & Hi & _)]; [exact Ha | discriminate].
  - simpl. destruct (el_tags e) as [tags|] eqn:Htags.
    + case_bool_decide as Hin.
      * destruct (IH accs seen Hseen Hnd) as [IHnd IHin].
        split; [exact IHnd|]. intros a. rewrite IHin, emitted_shift; [tauto|].
        intros a0 Ha0. rewrite (accommodation_of_name e a0 tags Htags Ha0).
        exact Hin.
      * destruct (el_lat e) as [lat|] eqn:Hlat;
          [destruct (el_lon e) as [lon|] eqn:Hlon|].
        -- set (a0 := build_accommodation e tags (extract_name tags) lat lon).
           assert (Ha0 : accommodation_of e = Some a0).
           { unfold accommodation_of. rewrite Htags, Hlat, Hlon. reflexivity. }
           assert (Hname : acc_name a0 = extract_name tags) by reflexivity.
           destruct (IH (accs ++ [a0]) ({[extract_name tags]} ∪ seen))
             as [IHnd IHin].
           { intros n. rewrite fmap_app, elem_of_app, elem_of_union,
               elem_of_singleton, <- Hseen. simpl.
             rewrite list_elem_of_singleton. tauto. }
           { rewrite fmap_app. apply NoDup_app. split; [exact Hnd|].
             split; [|apply NoDup_singleton].
             intros n Hn Hn'. simpl in Hn'.
             apply list_elem_of_singleton in Hn'. subst n.
             apply Hin, Hseen. rewrite <- Hname. exact Hn. }
           split; [exact IHnd|]. intros a. rewrite IHin. split.
           ++ intros [Ha | (i & e0 & Hi & Ha & Hn & Hfirst)].
              ** apply elem_of_app in Ha as [Ha | Ha]; [left; exact Ha|].
                 apply list_elem_of_singleton in Ha. subst a.
                 right. exists 0, e. repeat split; try assumption.
                 intros j e' a' Hj. lia.
              ** right. exists (S i), e0.
                 apply not_elem_of_union in Hn as [Hn1 Hn2].
                 repeat split; try assumption.
                 intros j e' a' Hj Hl Ha'. destruct j as [|j].
                 --- simpl in Hl. injection Hl as <-.
                     rewrite Ha0 in Ha'. injection Ha' as <-.
                     rewrite Hname. intros Heq. apply Hn1.
                     apply elem_of_singleton. symmetry. exact Heq.
                 --- apply (Hfirst j e' a'); [lia | exact Hl | exact Ha'].
           ++ intros [Ha | (i & e0 & Hi & Ha & Hn & Hfirst)].
              ** left. apply elem_of_app. left. exact Ha.
              ** destruct i as [|i].
                 --- simpl in Hi. injection Hi as <-.
                     rewrite Ha0 in Ha. injection Ha as <-.
                     left. apply elem_of_app. right.
                     apply list_elem_of_singleton. reflexivity.
                 --- right. exists i, e0. repeat split; try assumption.
                     +++ apply not_elem_of_union. split; [|exact Hn].
                         rewrite elem_of_singleton. intros Heq.
                         apply (Hfirst 0 e a0); [lia | reflexivity | exact Ha0 |].
                         rewrite Hname. symmetry. exact Heq.
                     +++ intros j e' a' Hj Hl.
                         apply (Hfirst (S j) e' a'); [lia | exact Hl].
        -- destruct (IH accs seen Hseen Hnd) as [IHnd IHin].
           split; [exact IHnd|]. intros a.
           rewrite IHin, emitted_shift; [tauto|].
           intros a0. unfold accommodation_of.
           rewrite Htags, Hlat, Hlon. discriminate.
        -- destruct (IH accs seen Hseen Hnd) as [IHnd IHin].
           split; [exact IHnd|]. intros a.
           rewrite IHin, emitted_shift; [tauto|].
           intros a0. unfold accommodation_of.
           rewrite Htags, Hlat. discriminate.
    + destruct (IH accs seen Hseen Hnd) as [IHnd IHin].
      split; [exact IHnd|]. intros a. rewrite IHin, emitted_shift; [tauto|].
      intros a0. unfold accommodation_of. rewrite Htags. discriminate.
Qed.


(** Two records of one name and a record without coordinates. *)
Example normalize_osm_data_example :
  acc_name <$>
    normalize_osm_data
      [ {| el_id := Some 1%Z; el_type := Some "node";
           el_lat := Some 10%Q; el_lon := Some 107%Q;
           el_tags := Some (<["name" := "Sea Hotel"]> ∅) |};
        {| el_id := Some 2%Z; el_type := Some "way";
           el_lat := None; el_lon := None;
           el_tags := Some (<["name" := "Way Hotel"]> ∅) |};
        {| el_id := Some 3%Z; el_type := Some "node";
           el_lat := Some 11%Q; el_lon := Some 108%Q;
           el_tags := Some (<["name" := "Sea Hotel"]> ∅) |};
        {| el_id := Some 4%Z; el_type := Some "node";
           el_lat := Some 11%Q; el_lon := Some 108%Q; el_tags := None |};
        {| el_id := Some 5%Z; el_type := Some "node";
           el_lat := Some 12%Q; el_lon := Some 109%Q;
           el_tags := Some (<["tourism" := "hostel"]> ∅) |};
        {| el_id := Some 6%Z; el_type := Some "node";
           el_lat := Some 13%Q; el_lon := Some 109%Q;
           el_tags := Some (<["amenity" := "bar"]> ∅) |} ]
  = ["Sea Hotel"; "Unnamed"].
Proof. vm_compute. reflexivity. Qed.

(** A name counts as seen once a record of that name is emitted: a way
    without coordinates does not take the name from the node after it. *)
Example normalize_osm_data_way_then_node :
  acc_id <$>
    normalize_osm_data
      [ {| el_id := Some 1%Z; el_type := Some "way";
           el_lat := None; el_lon := None;
           el_tags := Some (<["name" := "Sea Hotel"]> ∅) |};
        {| el_id := Some 2%Z; el_type := Some "node";
           el_lat := Some 10%Q; el_lon := Some 107%Q;
           el_tags := Some (<["name" := "Sea Hotel"]> ∅) |};
        {| el_id := Some 3%Z; el_type := Some "node";
           el_lat := Some 11%Q; el_lon := Some 108%Q;
           el_tags := Some (<["name" := "Sea Hotel"]> ∅) |} ]
  = [2%Z].
Proof. vm_compute. reflexivity. Qed.
End NormalizeFacts.

(** ** The store *)

Module HeapFacts.
Import Backend.

Lemma upd_same h l a : upd h l a l = a.
Proof. unfold upd. rewrite Nat.eqb_refl. reflexivity. Qed.

Lemma upd_other h l a l' : l' <> l -> upd h l a l' = h l'.
Proof.
  intros Hne. unfold upd. destruct (Nat.eqb_spec l' l); [contradiction|].
  reflexivity.
Qed.

Lemma upd_cases h l a l' :
  (l' = l /\ upd h l a l' = a) \/ (l' <> l /\ upd h l a l' = h l').
Proof.
  destruct (Nat.eq_dec l' l) as [-> | Hne].
  - left. split; [reflexivity | apply upd_same].
  - right. split; [exact Hne | apply upd_other; exact Hne].
Qed.

(** The references of a fresh list are pairwise distinct. *)
Lemma store_all_locs accs : forall h n,
  (store_all h n accs).2 = seq n (length accs).
Proof.
  induction accs as [|a rest IH]; intros h n; simpl; [reflexivity|].
  specialize (IH (upd h n a) (S n)).
  destruct (store_all (upd h n a) (S n) rest) as [h' ls]. simpl in *.
  rewrite IH. reflexivity.
Qed.

Lemma store_all_NoDup accs h n : NoDup (store_all h n accs).2.
Proof. rewrite store_all_locs. apply NoDup_seq. Qed.
End HeapFacts.

(** ** The filter stage *)

Module FilterFacts.
Import PyNum Utils InputProcessing Backend HeapFacts.

Lemma gtb_false_iff (a b : Q) : gtb a b = false <-> (a <= b)%Q.
Proof.
  unfold gtb. rewrite negb_false_iff. apply Qle_bool_iff.
Qed.

Lemma gtb_true_iff (a b : Q) : gtb a b = true <-> (b < a)%Q.
Proof.
  unfold gtb. rewrite negb_true_iff. split.
  - intros Hf. apply Qnot_le_lt. intros Hle.
    apply Qle_bool_iff in Hle. congruence.
  - intros Hlt. destruct (Qle_bool a b) eqn:Hle; [|reflexivity].
    apply Qle_bool_iff in Hle. exfalso. exact (Qlt_not_le _ _ Hlt Hle).
Qed.

Lemma has_match_iff a required :
  has_match a required = true
  <-> exists tag, tag ∈ required /\ tag ∈ acc_tags a.
Proof.
  unfold has_match. rewrite existsb_exists. split.
  - intros (tag & Hin & Hdec). exists tag.
    split; [apply list_elem_of_In; exact Hin|].
    apply bool_decide_eq_true in Hdec. exact Hdec.
  - intros (tag & Hin & Htag). exists tag.
    split; [apply list_elem_of_In; exact Hin|].
    apply bool_decide_eq_true. exact Htag.
Qed.

Section Filter.
Context `{MathModule}.

(** The distance the loop body computes for one accommodation. *)
Definition distance_to (req : search_request) (a : accommodation) : Q :=
  haversine_distance (sr_lat req) (sr_lon req)
    (acc_location a).1 (acc_location a).2.

(** The two tests of the loop body: they read the location and the tags. *)
Definition passes (req : search_request) (a : accommodation) : bool :=
  negb (gtb (distance_to req a) (sr_radius req / 1000)%Q)
  && negb (match required_tags req with [] => false | _ => true end
           && negb (has_match a (required_tags req))).

Lemma filter_loop_cons req h acc rest filtered :
  filter_loop req h (acc :: rest) filtered
  = if passes req (h acc)
    then filter_loop req
           (upd h acc (set_distance (distance_to req (h acc)) (h acc)))
           rest (filtered ++ [acc])
    else filter_loop req h rest filtered.
Proof.
  simpl. unfold passes, distance_to.
  destruct (acc_location (h acc)) as [acc_lat acc_lon]. simpl.
  destruct (gtb _ _); simpl; [reflexivity|].
  destruct (_ && _); reflexivity.
Qed.

Lemma passes_upd req h acc d l :
  passes req (upd h acc (set_distance d (h acc)) l) = passes req (h l).
Proof.
  destruct (upd_cases h acc (set_distance d (h acc)) l)
    as [[-> ->] | [_ ->]]; reflexivity.
Qed.

Lemma distance_to_upd req h acc d l :
  distance_to req (upd h acc (set_distance d (h acc)) l)
  = distance_to req (h l).
Proof.
  destruct (upd_cases h acc (set_distance d (h acc)) l)
    as [[-> ->] | [_ ->]]; reflexivity.
Qed.

(** The list returned: the accommodations that pass, in the order of the
    input. *)
Lemma filter_loop_list req accs : forall h filtered,
  (filter_loop req h accs filtered).2
  = filtered ++ List.filter (fun l => passes req (h l)) accs.
Proof.
  induction accs as [|acc rest IH]; intros h filtered.
  - simpl. rewrite app_nil_r. reflexivity.
  - rewrite filter_loop_cons. cbn [List.filter].
    destruct (passes req (h acc)); [|apply IH].
    rewrite IH, <- app_assoc. simpl. do 2 f_equal.
    apply List.filter_ext. intros l. apply passes_upd.
Qed.

(** The store returned: the distance of every accommodation kept is the one
    computed, nothing else is changed. *)
Lemma filter_loop_heap req accs : forall h filtered l,
  (filter_loop req h accs filtered).1 l
  = if decide (l ∈ List.filter (fun l => passes req (h l)) accs)
    then set_distance (distance_to req (h l)) (h l)
    else h l.
Proof.
  induction accs as [|acc rest IH]; intros h filtered l.
  - simpl. reflexivity.
  - rewrite filter_loop_cons. cbn [List.filter].
    destruct (passes req (h acc)) eqn:Hp; [|apply IH].
    rewrite IH.
    rewrite (List.filter_ext _ (fun l => passes req (h l)))
      by (intros l0; apply passes_upd).
    rewrite distance_to_upd.
    destruct (upd_cases h acc
                (set_distance (distance_to req (h acc)) (h acc)) l)
      as [[-> ->] | [Hne ->]].
    + destruct (decide _) as [Hin | Hnin], (decide _) as [Hin' | Hnin'];
        try reflexivity; exfalso; apply Hnin'; left.
    + destruct (decide _) as [Hin | Hnin], (decide _) as [Hin' | Hnin'];
        try reflexivity.
      * exfalso. apply Hnin'. right. exact Hin.
      * exfalso. apply elem_of_cons in Hin' as [-> | Hin'];
          [apply Hne; reflexivity | apply Hnin, Hin'].
Qed.

(** C4: [filter_results] retains an accommodation of the list if and only
    if its haversine distance to the coordinate of the request is at most
    the radius divided by 1000 (a distance equal to it is retained) and,
    when the tag list of the request is not empty, one of the requested
    tags is among its tags; an empty requested tag list lets every
    accommodation within the radius pass. *)
Theorem filter_results_retains (h : heap) (accommodations : list loc)
    (req : search_request) (l : loc) :
  l ∈ (filter_results h accommodations req).2
  <-> l ∈ accommodations
      /\ (haversine_distance (sr_lat req) (sr_lon req)
            (acc_location (h l)).1 (acc_location (h l)).2
          <= sr_radius req / 1000)%Q
      /\ (required_tags req <> [] ->
          exists tag, tag ∈ required_tags req /\ tag ∈ acc_tags (h l)).
Proof.
  unfold filter_results. rewrite filter_loop_list. simpl.
  rewrite list_elem_of_In, filter_In, <- list_elem_of_In.
  unfold passes, distance_to.
  rewrite andb_true_iff, !negb_true_iff, gtb_false_iff, andb_false_iff,
    negb_false_iff, has_match_iff.
  split; intros (Hin & Hd & Ht); (split; [exact Hin|]); (split; [exact Hd|]).
  - intros Hne. destruct Ht as [Ht | Ht]; [|exact Ht].
    destruct (required_tags req); [contradiction | discriminate].
  - destruct (required_tags req) as [|t ts] eqn:Hreq; [left; reflexivity|].
    right. apply Ht. discriminate.
Qed.

(** The list kept has no accommodation twice when the input has none. *)
Lemma filter_results_NoDup h accommodations req :
  NoDup accommodations -> NoDup (filter_results h accommodations req).2.
Proof.
  intros Hnd. unfold filter_results. rewrite filter_loop_list. simpl.
  apply NoDup_ListNoDup, List.NoDup_filter, NoDup_ListNoDup, Hnd.
Qed.
(** The normalizer makes a new dict for each accommodation it emits and
    the filter keeps a part of that list: the list handed to the ranking
    holds no accommodation twice. *)
Lemma pipeline_NoDup h n osm_elements req :
  let stored := store_all h n (normalize_osm_data osm_elements) in
  NoDup (filter_results stored.1 stored.2 req).2.
Proof. apply filter_results_NoDup, store_all_NoDup. Qed.
End Filter.
End FilterFacts.

(** ** The ranking stage *)

Module RankFacts.
Import PyNum InputProcessing Backend HeapFacts FilterFacts.

(** *** Rounding *)

Lemma gtb_comp (a a' b b' : Q) :
  (a == a')%Q -> (b == b')%Q -> gtb a b = gtb a' b'.
Proof. intros Ha Hb. unfold gtb. rewrite Ha, Hb. reflexivity. Qed.

Lemma round_half_even_comp (x y : Q) :
  (x == y)%Q -> round_half_even x = round_half_even y.
Proof.
  intros Hxy. unfold round_half_even.
  rewrite (Qfloor_comp x y Hxy).
  assert (Hr : (x - inject_Z (Qfloor y) == y - inject_Z (Qfloor y))%Q).
  { rewrite Hxy. reflexivity. }
  rewrite (gtb_comp (1 # 2) (1 # 2) _ _ (Qeq_refl _) Hr).
  rewrite (gtb_comp _ _ (1 # 2) (1 # 2) Hr (Qeq_refl _)).
  reflexivity.
Qed.

(** [round(_, 2)] depends on the value of its argument only. *)
Lemma round2_comp (x y : Q) : (x == y)%Q -> round2 x = round2 y.
Proof.
  intros Hxy. unfold round2.
  rewrite (round_half_even_comp (x * 100) (y * 100)); [reflexivity|].
  rewrite Hxy. reflexivity.
Qed.

(** *** The score *)

(** The number of tags an accommodation shares with the request. *)
Definition tag_matches (req : search_request) (a : accommodation) : nat :=
  size ((list_to_set (acc_tags a) : gset string)
          ∩ list_to_set (required_tags req)).

Lemma compute_score_formula req a :
  compute_score req a
  = round2 (10 + PyNum.max 0 (5 - acc_distance a)
            + 2 * inject_Z (Z.of_nat (tag_matches req a))
            + (if bool_decide (acc_type a = sr_type req) then 3 else 0)
            + (if bool_decide (acc_name a <> "Unnamed") then 1 else 0))%Q.
Proof.
  unfold compute_score, tag_matches.
  destruct (bool_decide (acc_type a = sr_type req));
    (destruct (decide (acc_name a = "Unnamed")) as [He | Hne];
     [rewrite (bool_decide_eq_true_2 _ He),
        (bool_decide_eq_false_2 (acc_name a <> "Unnamed"))
        by (intros Hc; exact (Hc He))
     |rewrite (bool_decide_eq_false_2 _ Hne),
        (bool_decide_eq_true_2 _ Hne)]);
    simpl; apply round2_comp; ring.
Qed.

(** The score reads neither the score nor the rank. *)
Lemma compute_score_set_score req s a :
  compute_score req (set_score s a) = compute_score req a.
Proof. reflexivity. Qed.

Lemma score_loop_heap req accs : forall h l,
  score_loop req h accs l
  = if decide (l ∈ accs) then set_score (compute_score req (h l)) (h l)
    else h l.
Proof.
  induction accs as [|acc rest IH]; intros h l; simpl.
  - reflexivity.
  - rewrite IH.
    destruct (upd_cases h acc (set_score (compute_score req (h acc)) (h acc)) l)
      as [[-> ->] | [Hne ->]].
    + destruct (decide _) as [Hin | Hnin], (decide _) as [Hin' | Hnin'];
        try reflexivity; exfalso; apply Hnin'; left.
    + destruct (decide _) as [Hin | Hnin], (decide _) as [Hin' | Hnin'];
        try reflexivity.
      * exfalso. apply Hnin'. right. exact Hin.
      * exfalso. apply elem_of_cons in Hin' as [-> | Hin'];
          [apply Hne; reflexivity | apply Hnin, Hin'].
Qed.
(** *** The sort *)

Section Sorting.
Variable key : loc -> Q.

(** [x] comes before [y] in descending order of the key. *)
Definition desc (x y : loc) : Prop := (key y <= key x)%Q.

Lemma insert_desc_perm x l : insert_desc key x l ≡ₚ x :: l.
Proof.
  induction l as [|y r IH]; simpl; [reflexivity|].
  destruct (gtb (key y) (key x)); [|reflexivity].
  rewrite IH. apply Permutation_swap.
Qed.

Lemma sorted_desc_perm l : sorted_desc key l ≡ₚ l.
Proof.
  induction l as [|x r IH]; simpl; [reflexivity|].
  rewrite insert_desc_perm, IH. reflexivity.
Qed.

Lemma insert_desc_sorted x l :
  StronglySorted desc l -> StronglySorted desc (insert_desc key x l).
Proof.
  induction l as [|y r IH]; intros Hs; simpl.
  - constructor; constructor.
  - apply StronglySorted_inv in Hs as [Hr Hy].
    destruct (gtb (key y) (key x)) eqn:Hg.
    + apply gtb_true_iff in Hg. constructor; [apply IH; exact Hr|].
      apply Forall_forall. intros z Hz.
      rewrite insert_desc_perm in Hz.
      apply elem_of_cons in Hz as [-> | Hz].
      * unfold desc. apply Qlt_le_weak. exact Hg.
      * revert z Hz. apply Forall_forall. exact Hy.
    + apply gtb_false_iff in Hg.
      constructor; [constructor; assumption|].
      constructor; [exact Hg|].
      eapply Forall_impl; [exact Hy|].
      intros z Hz. unfold desc in *. eapply Qle_trans; eassumption.
Qed.

Lemma sorted_desc_sorted l : StronglySorted desc (sorted_desc key l).
Proof.
  induction l as [|x r IH]; simpl; [constructor|].
  apply insert_desc_sorted. exact IH.
Qed.

(** Stability: the elements of one key keep the order of the input. *)
Lemma insert_desc_stable (P : loc -> bool) x l :
  (forall y z, P y = true -> P z = true -> (key y == key z)%Q) ->
  List.filter P (insert_desc key x l) = List.filter P (x :: l).
Proof.
  intros Hclass. induction l as [|y r IH]; [reflexivity|].
  cbn [insert_desc].
  destruct (gtb (key y) (key x)) eqn:Hg; [|reflexivity].
  apply gtb_true_iff in Hg.
  cbn [List.filter] in *. rewrite IH.
  destruct (P x) eqn:Hx, (P y) eqn:Hy; try reflexivity.
  exfalso. rewrite (Hclass x y Hx Hy) in Hg.
  exact (Qlt_irrefl _ Hg).
Qed.

Lemma sorted_desc_stable (P : loc -> bool) l :
  (forall y z, P y = true -> P z = true -> (key y == key z)%Q) ->
  List.filter P (sorted_desc key l) = List.filter P l.
Proof.
  intros Hclass. induction l as [|x r IH]; [reflexivity|].
  cbn [sorted_desc foldr]. fold (sorted_desc key r).
  rewrite (insert_desc_stable P x _ Hclass).
  cbn [List.filter]. rewrite IH. reflexivity.
Qed.

Lemma StronglySorted_lookup l : StronglySorted desc l ->
  forall i j x y, i <= j -> l !! i = Some x -> l !! j = Some y -> desc x y.
Proof.
  induction 1 as [|z r Hr IH Hz]; intros i j x y Hij Hi Hj;
    [discriminate|].
  destruct i as [|i], j as [|j]; simpl in *; try lia.
  - injection Hi as <-. injection Hj as <-. unfold desc. apply Qle_refl.
  - injection Hi as <-.
    revert Hz. rewrite Forall_forall. intros Hz. apply Hz.
    apply list_elem_of_lookup. eauto.
  - apply (IH i j); [lia | assumption | assumption].
Qed.
End Sorting.

Lemma sorted_desc_ext key key' l :
  (forall x, key x = key' x) -> sorted_desc key l = sorted_desc key' l.
Proof.
  intros Hext. induction l as [|x r IH]; simpl; [reflexivity|].
  rewrite IH. generalize (sorted_desc key' r). intros k.
  induction k as [|y k IHk]; simpl; [reflexivity|].
  rewrite !Hext, IHk. reflexivity.
Qed.

(** *** The ranks *)

Lemma rank_loop_notin top : forall h i l,
  l ∉ top -> rank_loop h top i l = h l.
Proof.
  induction top as [|acc rest IH]; intros h i l Hn; simpl; [reflexivity|].
  apply not_elem_of_cons in Hn as [Hne Hn].
  rewrite IH by exact Hn. apply upd_other. exact Hne.
Qed.

(** The loop changes the rank only. *)
Lemma rank_loop_frame top : forall h i l,
  set_rank 0 (rank_loop h top i l) = set_rank 0 (h l).
Proof.
  induction top as [|acc rest IH]; intros h i l; simpl; [reflexivity|].
  rewrite IH.
  destruct (upd_cases h acc (set_rank (i + 1) (h acc)) l)
    as [[-> ->] | [_ ->]]; reflexivity.
Qed.

Lemma rank_loop_score top h i l :
  acc_score (rank_loop h top i l) = acc_score (h l).
Proof.
  change (acc_score (set_rank 0 (rank_loop h top i l))
          = acc_score (set_rank 0 (h l))).
  rewrite rank_loop_frame. reflexivity.
Qed.

(** The rank of an accommodation is that of its last position. *)
Lemma rank_loop_last top : forall h i k l,
  top !! k = Some l ->
  (forall k', k < k' -> top !! k' <> Some l) ->
  acc_rank (rank_loop h top i l) = Some (i + k + 1).
Proof.
  induction top as [|acc rest IH]; intros h i k l Hk Hlast; [discriminate|].
  simpl. destruct k as [|k]; simpl in Hk.
  - injection Hk as ->.
    rewrite rank_loop_notin.
    + rewrite upd_same. simpl. f_equal. lia.
    + intros Hin. apply list_elem_of_lookup in Hin as [k' Hk'].
      apply (Hlast (S k')); [lia | exact Hk'].
  - rewrite (IH _ (S i) k l Hk).
    + f_equal. lia.
    + intros k' Hlt. apply (Hlast (S k')). lia.
Qed.

Lemma rank_loop_NoDup top h i k l :
  NoDup top -> top !! k = Some l ->
  acc_rank (rank_loop h top i l) = Some (i + k + 1).
Proof.
  intros Hnd Hk. apply rank_loop_last; [exact Hk|].
  intros k' Hlt Hk'.
  pose proof (NoDup_lookup _ _ _ _ Hnd Hk Hk'). lia.
Qed.

Lemma rank_loop_in top : forall h i l,
  l ∈ top ->
  exists k, k < length top /\ acc_rank (rank_loop h top i l) = Some (i + k + 1).
Proof.
  induction top as [|acc rest IH]; intros h i l Hin; [inversion Hin|].
  simpl. destruct (decide (l ∈ rest)) as [Hr | Hr].
  - destruct (IH (upd h acc (set_rank (i + 1) (h acc))) (S i) l Hr)
      as (k & Hk & Heq).
    exists (S k). split; [lia|]. rewrite Heq. f_equal. lia.
  - apply elem_of_cons in Hin as [-> | Hin]; [|contradiction].
    exists 0. split; [lia|].
    rewrite rank_loop_notin by exact Hr.
    rewrite upd_same. simpl. f_equal. lia.
Qed.
(** *** The stage *)

Lemma rank_results_nonempty h accs req :
  accs <> [] ->
  rank_results h accs req
  = (rank_loop (score_loop req h accs)
       (take 5 (sorted_desc (fun x => acc_score (score_loop req h accs x))
                  accs)) 0,
     take 5 (sorted_desc (fun x => acc_score (score_loop req h accs x)) accs)).
Proof. destruct accs; [contradiction | reflexivity]. Qed.

Lemma rank_results_returned_in h accs req l :
  l ∈ (rank_results h accs req).2 -> l ∈ accs.
Proof.
  destruct (decide (accs = [])) as [-> | Hne]; [intros Hin; exact Hin|].
  rewrite rank_results_nonempty by exact Hne. cbn [snd].
  intros Hin. apply elem_of_take in Hin as (i & Hi & _).
  rewrite <- (sorted_desc_perm
                (fun x => acc_score (score_loop req h accs x)) accs).
  apply list_elem_of_lookup. exists i. exact Hi.
Qed.

Lemma rank_results_score_of h accs req l :
  l ∈ accs ->
  acc_score ((rank_results h accs req).1 l) = compute_score req (h l).
Proof.
  intros Hin.
  rewrite rank_results_nonempty by (intros ->; inversion Hin). cbn [fst].
  rewrite rank_loop_score, score_loop_heap.
  destruct (decide _); [reflexivity | contradiction].
Qed.

Lemma rank_results_length h accs req :
  length (rank_results h accs req).2 = Nat.min 5 (length accs).
Proof.
  destruct (decide (accs = [])) as [-> | Hne]; [reflexivity|].
  rewrite rank_results_nonempty by exact Hne. cbn [snd].
  rewrite length_take, (Permutation_length (sorted_desc_perm _ accs)).
  reflexivity.
Qed.

(** C10: on a non-empty list [rank_results] works in place.  In the store
    it returns, every accommodation of the list has its score set, also
    those that are not returned; the accommodations returned, at most 5,
    are entries of the list (the same dicts, not copies) and each has a
    rank between 1 and the number returned; the rank of any other accommodation is as
    before; no field other than the score and the rank is changed, and an
    accommodation that is not in the list is not changed at all. *)
Theorem rank_results_in_place (h : heap) (accommodations : list loc)
    (req : search_request) :
  accommodations <> [] ->
  let h' := (rank_results h accommodations req).1 in
  let top := (rank_results h accommodations req).2 in
  (forall l, l ∈ accommodations ->
     acc_score (h' l) = compute_score req (h l))
  /\ (forall l, l ∈ top -> l ∈ accommodations)
  /\ length top <= 5
  /\ (forall l, l ∈ top ->
        exists k, k < length top /\ acc_rank (h' l) = Some (k + 1))
  /\ (forall l, l ∉ top -> acc_rank (h' l) = acc_rank (h l))
  /\ (forall l,
        acc_id (h' l) = acc_id (h l)
        /\ acc_name (h' l) = acc_name (h l)
        /\ acc_location (h' l) = acc_location (h l)
        /\ acc_type (h' l) = acc_type (h l)
        /\ acc_tags (h' l) = acc_tags (h l)
        /\ acc_distance (h' l) = acc_distance (h l)
        /\ acc_source (h' l) = acc_source (h l))
  /\ (forall l, l ∉ accommodations -> h' l = h l).
Proof.
  intros Hne h' top.
  assert (Hframe : forall l,
            set_rank 0 (set_score 0 (h' l)) = set_rank 0 (set_score 0 (h l))).
  { intros l. subst h'. rewrite rank_results_nonempty by exact Hne.
    cbn [fst].
    change (set_rank 0 (set_score 0 ?a)) with (set_score 0 (set_rank 0 a)).
    rewrite rank_loop_frame, score_loop_heap.
    destruct (decide _); reflexivity. }
  split; [intros l Hin; apply rank_results_score_of; exact Hin|].
  split; [intros l Hin; eapply rank_results_returned_in; exact Hin|].
  split; [subst top; rewrite rank_results_length; lia|].
  split.
  { intros l Hin. subst h' top. revert Hin.
    rewrite rank_results_nonempty by exact Hne. cbn [fst snd].
    intros Hin. apply (rank_loop_in _ _ 0 l Hin). }
  split.
  { intros l Hnin. subst h' top. revert Hnin.
    rewrite rank_results_nonempty by exact Hne. cbn [fst snd].
    intros Hnin. rewrite rank_loop_notin by exact Hnin.
    rewrite score_loop_heap. destruct (decide _); reflexivity. }
  split.
  { intros l. specialize (Hframe l).
    repeat split;
      [ apply (f_equal acc_id) in Hframe
      | apply (f_equal acc_name) in Hframe
      | apply (f_equal acc_location) in Hframe
      | apply (f_equal acc_type) in Hframe
      | apply (f_equal acc_tags) in Hframe
      | apply (f_equal acc_distance) in Hframe
      | apply (f_equal acc_source) in Hframe ];
      exact Hframe. }
  intros l Hnin. subst h'.
  rewrite rank_results_nonempty by exact Hne. cbn [fst].
  rewrite rank_loop_notin.
  - rewrite score_loop_heap. destruct (decide _); [contradiction | reflexivity].
  - intros Hin. apply Hnin.
    apply (rank_results_returned_in h accommodations req).
    rewrite rank_results_nonempty by exact Hne. exact Hin.
Qed.

(** *** The request *)

Lemma required_tags_max_results n la lo b t tg r m :
  required_tags (mk_search_request n la lo b t tg r m) = default [] tg.
Proof. reflexivity. Qed.

Lemma compute_score_max_results n la lo b t tg r m1 m2 a :
  compute_score (mk_search_request n la lo b t tg r m1) a
  = compute_score (mk_search_request n la lo b t tg r m2) a.
Proof. reflexivity. Qed.

Lemma score_loop_max_results n la lo b t tg r m1 m2 accs : forall h,
  score_loop (mk_search_request n la lo b t tg r m1) h accs
  = score_loop (mk_search_request n la lo b t tg r m2) h accs.
Proof.
  induction accs as [|acc rest IH]; intros h; [reflexivity|].
  cbn [score_loop]. rewrite IH. reflexivity.
Qed.

Lemma filter_loop_max_results `{MathModule} n la lo b t tg r m1 m2 accs :
  forall h filtered,
    filter_loop (mk_search_request n la lo b t tg r m1) h accs filtered
    = filter_loop (mk_search_request n la lo b t tg r m2) h accs filtered.
Proof.
  induction accs as [|acc rest IH]; intros h filtered; [reflexivity|].
  rewrite !filter_loop_cons.
  change (passes (mk_search_request n la lo b t tg r m1) (h acc))
    with (passes (mk_search_request n la lo b t tg r m2) (h acc)).
  destruct (passes _ _); [|apply IH].
  apply IH.
Qed.

(** C9: [max_results] is not read.  For two requests that differ at most
    in [max_results], [filter_results] returns the same list and the same
    store, and so does [rank_results]; the number of accommodations
    [rank_results] returns is at most 5 whatever [max_results] is. *)
Theorem max_results_not_read `{MathModule} (h : heap)
    (accommodations : list loc) (req1 req2 : search_request) :
  sr_location_name req1 = sr_location_name req2 ->
  sr_lat req1 = sr_lat req2 ->
  sr_lon req1 = sr_lon req2 ->
  sr_budget req1 = sr_budget req2 ->
  sr_type req1 = sr_type req2 ->
  sr_tags req1 = sr_tags req2 ->
  sr_radius req1 = sr_radius req2 ->
  filter_results h accommodations req1 = filter_results h accommodations req2
  /\ rank_results h accommodations req1 = rank_results h accommodations req2
  /\ length (rank_results h accommodations req1).2 <= 5.
Proof.
  destruct req1 as [n1 la1 lo1 b1 t1 tg1 r1 m1],
           req2 as [n2 la2 lo2 b2 t2 tg2 r2 m2].
  simpl. intros -> -> -> -> -> -> ->.
  split; [apply filter_loop_max_results|].
  split.
  - unfold rank_results.
    rewrite (score_loop_max_results n2 la2 lo2 b2 t2 tg2 r2 m1 m2).
    reflexivity.
  - rewrite rank_results_length. lia.
Qed.
End RankFacts.

(** ** A run of the pipeline *)

Module Examples.
Import PyNum Utils InputProcessing Backend.
Import SearchingFacts NormalizeFacts FilterFacts RankFacts.

(** A stand-in for the [math] module that computes on rationals: the
    small-angle values of the trigonometric functions and the exact root of
    a square.  It serves to run the stages on data; the theorems hold for
    every [MathModule]. *)
Definition small_angle_math : MathModule :=
  {| math_radians x := (x * (355 # 113) / 180)%Q;
     math_sin x := x;
     math_cos _ := 1%Q;
     math_asin x := x;
     math_sqrt x := (Z.sqrt (Qnum x * Zpos (Qden x)) # Qden x)%Q |}.

Definition raw (id : Z) (lat : option Q) (tags : list (string * string))
  : element :=
  {| el_id := Some id; el_type := Some "node";
     el_lat := lat; el_lon := (fun _ => 107084 # 1000)%Q <$> lat;
     el_tags := Some (list_to_map tags) |}.

(** Twelve raw records around the coordinate of [example_request]. *)
Definition example_raw : list element :=
  [ raw 1 (Some (10346 # 1000)%Q)
      [("name", "Sea Hotel"); ("tourism", "hotel"); ("amenity", "restaurant")];
    raw 2 (Some (10350 # 1000)%Q)
      [("name", "Sea Hotel"); ("tourism", "hotel")];
    raw 3 None [("name", "Way Resort"); ("tourism", "resort")];
    {| el_id := Some 4%Z; el_type := Some "node";
       el_lat := Some (10347 # 1000)%Q; el_lon := Some (107084 # 1000)%Q;
       el_tags := None |};
    raw 5 (Some (10356 # 1000)%Q)
      [("tourism", "hostel"); ("amenity", "restaurant")];
    raw 6 (Some (10446 # 1000)%Q)
      [("name", "Far Hotel"); ("tourism", "hotel")];
    raw 7 (Some (10366 # 1000)%Q)
      [("name", "Guest A"); ("tourism", "guest_house"); ("building", "hotel")];
    raw 8 (Some (10366 # 1000)%Q)
      [("name", "Hotel B"); ("tourism", "hotel")];
    raw 9 (Some (10326 # 1000)%Q)
      [("name", "Hotel C"); ("tourism", "hotel")];
    raw 10 (Some (10376 # 1000)%Q)
      [("name", "Hostel D"); ("tourism", "hostel"); ("amenity", "restaurant")];
    raw 11 (Some (10386 # 1000)%Q)
      [("name", "Hotel E"); ("tourism", "hotel")];
    raw 12 (Some (10346 # 1000)%Q)
      [("name", "Flat F"); ("tourism", "apartment")] ].

Definition blank : accommodation :=
  {| acc_id := 0; acc_name := ""; acc_location := (0, 0)%Q; acc_type := "";
     acc_tags := []; acc_score := 0; acc_distance := 0; acc_source := "";
     acc_rank := None |}.

Definition normalized : heap * list loc :=
  store_all (fun _ => blank) 0 (normalize_osm_data example_raw).

Definition filtered : heap * list loc :=
  @filter_results small_angle_math normalized.1 normalized.2 example_request.

Definition ranked : heap * list loc :=
  rank_results filtered.1 filtered.2 example_request.

Example normalized_names :
  (fun l => acc_name (normalized.1 l)) <$> normalized.2
  = ["Sea Hotel"; "Unnamed"; "Far Hotel"; "Guest A"; "Hotel B"; "Hotel C";
     "Hostel D"; "Hotel E"; "Flat F"].
Proof. vm_compute. reflexivity. Qed.

Example filtered_names :
  (fun l => acc_name (filtered.1 l)) <$> filtered.2
  = ["Sea Hotel"; "Unnamed"; "Guest A"; "Hotel B"; "Hotel C"; "Hostel D";
     "Hotel E"].
Proof. vm_compute. reflexivity. Qed.

Example ranked_names_scores_ranks :
  (fun l => (acc_name (ranked.1 l), acc_score (ranked.1 l),
             acc_rank (ranked.1 l))) <$> ranked.2
  = [("Sea Hotel", 23%Q, Some 1); ("Hotel B", Qred (1878 # 100), Some 2);
     ("Hotel C", Qred (1878 # 100), Some 3);
     ("Hotel E", Qred (1655 # 100), Some 4);
     ("Unnamed", Qred (1589 # 100), Some 5)].
Proof. vm_compute. reflexivity. Qed.
(** The references kept by the filter, and those returned by the ranking:
    "Guest A" (3) and "Hostel D" (6) are scored and not returned. *)
Example filtered_locs : filtered.2 = [0; 1; 3; 4; 5; 6; 7].
Proof. vm_compute. reflexivity. Qed.

Example ranked_locs : ranked.2 = [0; 4; 5; 7; 1].
Proof. vm_compute. reflexivity. Qed.



Lemma rank_results_in_place_witness :
  filtered.2 <> []
  /\ acc_score ((rank_results filtered.1 filtered.2 example_request).1 6)
     = compute_score example_request (filtered.1 6)
  /\ acc_rank ((rank_results filtered.1 filtered.2 example_request).1 6)
     = acc_rank (filtered.1 6).
Proof.
  assert (Hne : filtered.2 <> []).
  { vm_compute. discriminate. }
  split; [exact Hne|].
  destruct (rank_results_in_place filtered.1 filtered.2 example_request Hne)
    as (Hscore & _ & _ & _ & Hrank & _).
  split.
  - apply Hscore. apply (bool_decide_unpack _). vm_compute. exact I.
  - apply Hrank. apply (bool_decide_unpack _). vm_compute. exact I.
Defined.

(** A list that holds one dict twice: both positions are returned and the
    dict keeps the rank written last. *)
Example rank_results_same_dict_twice :
  (rank_results filtered.1 [0; 0] example_request).2 = [0; 0]
  /\ acc_rank ((rank_results filtered.1 [0; 0] example_request).1 0) = Some 2.
Proof. vm_compute. split; reflexivity. Qed.

(** "Hostel D" has its score, 14.66, and no rank. *)
Example ranked_beyond_top5 :
  acc_score (ranked.1 6) = Qred (1466 # 100) /\ acc_rank (ranked.1 6) = None.
Proof. vm_compute. split; reflexivity. Qed.

(** The request with a result cap of 3 in place of 10. *)
Definition example_request_cap3 : search_request :=
  {| sr_location_name := sr_location_name example_request;
     sr_lat := sr_lat example_request;
     sr_lon := sr_lon example_request;
     sr_budget := sr_budget example_request;
     sr_type := sr_type example_request;
     sr_tags := sr_tags example_request;
     sr_radius := sr_radius example_request;
     sr_max_results := 3 |}.

Lemma max_results_not_read_witness :
  @filter_results small_angle_math normalized.1 normalized.2 example_request
  = @filter_results small_angle_math normalized.1 normalized.2
      example_request_cap3
  /\ rank_results normalized.1 normalized.2 example_request
     = rank_results normalized.1 normalized.2 example_request_cap3
  /\ length (rank_results normalized.1 normalized.2 example_request).2 <= 5.
Proof.
  apply (@max_results_not_read small_angle_math normalized.1 normalized.2
           example_request example_request_cap3); reflexivity.
Defined.

Example cap3_returns_five :
  length (rank_results filtered.1 filtered.2 example_request_cap3).2 = 5.
Proof. vm_compute. reflexivity. Qed.

(** An accommodation at 5 km exactly, with a radius of 5000 m, is kept; one
    metre further it is dropped. *)
Definition at_distance (km : Q) : accommodation :=
  {| acc_id := 1; acc_name := "Edge Hotel";
     acc_location :=
       ((10346 # 1000) + km * 180 * (113 # 355) / 6371, 107084 # 1000)%Q;
     acc_type := "hotel"; acc_tags := ["hotel"]; acc_score := 0;
     acc_distance := 0; acc_source := "osm"; acc_rank := None |}.

Example filter_results_boundary :
  (@haversine_distance small_angle_math (sr_lat example_request)
     (sr_lon example_request) (acc_location (at_distance 5)).1
     (acc_location (at_distance 5)).2 == 5)%Q
  /\ (@filter_results small_angle_math
        (fun l => if Nat.eqb l 0 then at_distance 5
                  else at_distance (5001 # 1000))
        [0; 1] example_request).2 = [0].
Proof. split; vm_compute; reflexivity. Qed.
End Examples.
